(** * Booking SaaS: slot generation, admission control and appointment lifecycle

    Shallow embedding of the appointment core of the Django project:
    [appointments/utils.py], [appointments/models.py],
    [appointments/signals.py], [appointments/views.py],
    [accounts/models.py], [providers/models.py], [providers/decorators.py],
    [providers/views.py], [utils/tasks.py] and
    [subscriptions/management/commands/reset_monthly_limits.py].

    Database tables are finite maps from primary key to row (or lists of rows
    where no primary key is used by the modelled code); ORM calls are
    functions on an explicit store; code that writes is written in a small
    state-and-exception monad. *)

From Stdlib Require Import ZArith Lia Bool String Ascii List Sorted.
From stdpp Require Import base option list gmap strings.

Local Open Scope Z_scope.

(* ===================================================================== *)
(** ** Dates, times and the clock *)
(* ===================================================================== *)

(** A [datetime.time] is its number of microseconds since midnight, a
    [datetime.date] is its proleptic Gregorian ordinal ([date.toordinal()]),
    a naive [datetime.datetime] is the number of microseconds since midnight
    of ordinal 0. An aware instant is the same count taken in UTC. *)

Definition US_PER_MINUTE : Z := 60000000.
Definition US_PER_HOUR : Z := 60 * US_PER_MINUTE.
Definition US_PER_DAY : Z := 24 * US_PER_HOUR.

(** [datetime.time(hour, minute)]: raises [ValueError] out of range. *)
Definition time_ (hour minute : Z) : option Z :=
  if (0 <=? hour) && (hour <=? 23) && (0 <=? minute) && (minute <=? 59)
  then Some (hour * US_PER_HOUR + minute * US_PER_MINUTE)
  else None.

(** The values a [TimeField] can hold. *)
Definition valid_time (t : Z) : Prop := 0 <= t < US_PER_DAY.

Definition time_hour (t : Z) : Z := t / US_PER_HOUR.
Definition time_minute (t : Z) : Z := (t mod US_PER_HOUR) / US_PER_MINUTE.

(** [date.weekday()]: 0 = Monday ... 6 = Sunday; ordinal 1 is a Monday. *)
Definition weekday (date : Z) : Z := (date + 6) mod 7.

(** [datetime.combine(date, time)], [datetime.time()], [datetime.date()]. *)
Definition combine (date time : Z) : Z := date * US_PER_DAY + time.
Definition dt_time (dt : Z) : Z := dt mod US_PER_DAY.
Definition dt_date (dt : Z) : Z := dt / US_PER_DAY.

(** [timedelta(minutes=n)]. *)
Definition timedelta_minutes (n : Z) : Z := n * US_PER_MINUTE.

(** [pytz.timezone('Asia/Kolkata')], also [settings.TIME_ZONE]: the fixed
    offset +05:30. [astimezone_ist now] is the local wall-clock datetime of
    the instant [now], so [now.date()] in the sources that convert to IST is
    [dt_date (astimezone_ist now)]; [localize_ist] is [ist.localize] (and
    [timezone.make_aware] under the project's settings) and gives back an
    instant. *)
Definition IST_OFFSET : Z := 330 * US_PER_MINUTE.
Definition astimezone_ist (now : Z) : Z := now + IST_OFFSET.
Definition localize_ist (naive : Z) : Z := naive - IST_OFFSET.

(** [timezone.now().date()]: the date of the UTC instant. *)
Definition utc_date (now : Z) : Z := dt_date now.

(* --------------------------------------------------------------------- *)
(** *** [time.strftime] for the two formats the slot list uses *)

Definition digit (n : Z) : ascii := ascii_of_nat (48 + Z.to_nat n).

Definition pad2 (n : Z) : string :=
  String (digit (n / 10)) (String (digit (n mod 10)) EmptyString).

(** ['%H:%M'] *)
Definition strftime_HM (t : Z) : string :=
  (pad2 (time_hour t) ++ ":" ++ pad2 (time_minute t))%string.

(** ['%I:%M %p'] *)
Definition strftime_IMp (t : Z) : string :=
  let h := time_hour t in
  let h12 := if h mod 12 =? 0 then 12 else h mod 12 in
  let p : string := if h <? 12 then "AM"%string else "PM"%string in
  (pad2 h12 ++ ":" ++ pad2 (time_minute t) ++ " " ++ p)%string.

(* ===================================================================== *)
(** ** Data model *)
(* ===================================================================== *)

(** Columns that none of the modelled operations reads or writes (names,
    phone numbers, descriptions, domain settings, timestamps) are left out
    of the records. *)

Inductive Plan := free | pro.

(** [providers.models.ServiceProvider] *)
Record ServiceProvider := mkServiceProvider {
  sp_pk : Z;
  sp_user : Z;
  unique_booking_url : string;
  current_plan : Plan;
  plan_end_date : option Z;
  appointments_this_month : Z;
  last_reset_date : Z;
  sp_is_active : bool
}.

(** [providers.models.Service] *)
Record Service := mkService {
  svc_pk : Z;
  svc_service_provider : Z;
  duration_minutes : Z;
  price : Z;
  svc_is_active : bool
}.

(** [providers.models.Availability]: the provider's default hours. *)
Record Availability := mkAvailability {
  av_service_provider : Z;
  av_day_of_week : Z;
  av_start_time : Z;
  av_end_time : Z;
  av_is_available : bool
}.

(** [providers.models.ServiceAvailability]: documented in the model as
    "Service-specific availability that overrides the default availability.
    If no service-specific availability is set, the default availability is
    used." *)
Record ServiceAvailability := mkServiceAvailability {
  sa_service : Z;
  sa_day_of_week : Z;
  sa_start_time : Z;
  sa_end_time : Z;
  sa_is_available : bool
}.

(** [Appointment.STATUS_CHOICES] *)
Inductive Status := pending | confirmed | completed | cancelled | no_show.

(** [Appointment.PAYMENT_STATUS_CHOICES] *)
Inductive PaymentStatus := payment_pending | payment_paid | payment_refunded.

#[global] Instance Plan_eq_dec : EqDecision Plan.
Proof. solve_decision. Defined.
#[global] Instance Status_eq_dec : EqDecision Status.
Proof. solve_decision. Defined.
#[global] Instance PaymentStatus_eq_dec : EqDecision PaymentStatus.
Proof. solve_decision. Defined.

(** [appointments.models.Appointment]. [pk] is [None] on an instance that
    was never saved. [total_price] is [None] while unset. *)
Record Appointment := mkAppointment {
  pk : option Z;
  service_provider : Z;
  service : Z;
  client : option Z;
  appointment_date : Z;
  appointment_time : Z;
  status : Status;
  total_price : option Z;
  payment_status : PaymentStatus;
  payment_method : string
}.

(** Exceptions the modelled code can raise. *)
Inductive Exn :=
  | Http404
  | DoesNotExist
  | MultipleObjectsReturned
  | IntegrityError
  | DatabaseError
  | ValidationError
  | ValueError
  | AttributeError
  | DataError.

(** [accounts.models.CustomUser]; [request.user] when authenticated. The
    model has no [username]. *)
Record User := mkUser {
  user_pk : Z;
  is_provider : bool;
  first_name : string;
  last_name : string;
  email : string;
  phone : option string
}.

(** The database. The two auxiliary availability tables are only ever
    filtered, so they are lists of rows; the others are keyed by primary
    key. [next_appointment_pk] is the table's auto-increment sequence.
    [db_text_error] is the engine's answer to the texts of an INSERT, each
    with the [max_length] of its column ([None] for a [TextField]): the
    error it raises, if any, before a row is formed. *)
Record Store := mkStore {
  providers : gmap Z ServiceProvider;
  services : gmap Z Service;
  availability_slots : list Availability;
  service_availability : list ServiceAvailability;
  appointments : gmap Z Appointment;
  next_appointment_pk : Z;
  db_text_error : list (option Z * string) → option Exn
}.

Definition set_providers (f : gmap Z ServiceProvider → gmap Z ServiceProvider)
    (s : Store) : Store :=
  mkStore (f (providers s)) (services s) (availability_slots s)
          (service_availability s) (appointments s) (next_appointment_pk s)
          (db_text_error s).

Definition set_appointments (f : gmap Z Appointment → gmap Z Appointment)
    (s : Store) : Store :=
  mkStore (providers s) (services s) (availability_slots s)
          (service_availability s) (f (appointments s)) (next_appointment_pk s)
          (db_text_error s).

Definition set_next_appointment_pk (n : Z) (s : Store) : Store :=
  mkStore (providers s) (services s) (availability_slots s)
          (service_availability s) (appointments s) n (db_text_error s).

(** The engine of the production settings. With PostgreSQL the driver
    refuses a text that holds a NUL character ([ValueError]) before anything
    is sent, and the server refuses a text longer than its column unless the
    excess is spaces ([DataError]). *)
Definition has_nul (text : string) : bool :=
  existsb (Ascii.eqb Ascii.zero) (list_ascii_of_string text).

Definition fits_column (column : option Z * string) : bool :=
  match column.1 with
  | None => true
  | Some n =>
    forallb (λ c, Ascii.eqb c " ")
            (drop (Z.to_nat n) (list_ascii_of_string column.2))
  end.

Definition postgresql : list (option Z * string) → option Exn := λ columns,
  if existsb (λ column, has_nul column.2) columns then Some ValueError
  else if forallb fits_column columns then None
  else Some DataError.

(* ===================================================================== *)
(** ** Read-only queries *)
(* ===================================================================== *)

(** [QuerySet.get]: the single matching row; [DoesNotExist] and
    [MultipleObjectsReturned] both surface as [None]. *)
Definition queryset_get {A} (rows : list A) : option A :=
  match rows with
  | [r] => Some r
  | _ => None
  end.

(** [provider.availability_slots.get(day_of_week=d, is_available=True)] *)
Definition availability_get (s : Store) (provider : ServiceProvider)
    (day_of_week : Z) : option Availability :=
  queryset_get
    (List.filter
       (λ av, (av_service_provider av =? sp_pk provider)
              && (av_day_of_week av =? day_of_week)
              && av_is_available av)
       (availability_slots s)).

(** [status__in=['pending', 'confirmed']] *)
Definition status_active (st : Status) : bool :=
  match st with
  | pending | confirmed => true
  | _ => false
  end.

(** The filter of the two "already booked" queries. *)
Definition occupies (provider : ServiceProvider) (date time : Z)
    (a : Appointment) : bool :=
  (service_provider a =? sp_pk provider)
  && (appointment_date a =? date)
  && (appointment_time a =? time)
  && status_active (status a).

(** [Appointment.objects.filter(service_provider=provider,
      appointment_date=date, appointment_time=t,
      status__in=['pending', 'confirmed']).exists()] *)
Definition slot_booked (s : Store) (provider : ServiceProvider)
    (date time : Z) : bool :=
  existsb (λ kv, occupies provider date time kv.2)
          (map_to_list (appointments s)).

(* ===================================================================== *)
(** ** [appointments/utils.py]: slot generation *)
(* ===================================================================== *)

(** One dictionary of the returned list. *)
Record Slot := mkSlot {
  slot_time_str : string;     (* 'time' *)
  slot_display : string;      (* 'display' *)
  slot_available : bool;      (* 'available' *)
  slot_is_past : bool;        (* 'is_past' *)
  slot_is_booked : bool       (* 'is_booked' *)
}.

(** The [while current_time < end_time] loop. [fuel] bounds the number of
    iterations; [slots_fuel] below is always enough. *)
Fixpoint slots_loop (fuel : nat) (s : Store) (provider : ServiceProvider)
    (date now service_duration end_time current_time : Z) : list Slot :=
  match fuel with
  | O => []
  | S fuel' =>
    if current_time <? end_time then
      let slot_end_time := current_time + timedelta_minutes service_duration in
      let emitted :=
        if slot_end_time <=? end_time then
          let slot_time := dt_time current_time in
          let is_past :=
            if date =? dt_date (astimezone_ist now)
            then localize_ist (combine date slot_time) <? now
            else false in
          let is_booked := slot_booked s provider date slot_time in
          [ mkSlot (strftime_HM slot_time) (strftime_IMp slot_time)
                   (negb is_booked && negb is_past) is_past is_booked ]
        else [] in
      emitted ++ slots_loop fuel' s provider date now service_duration end_time
                            (current_time + timedelta_minutes 30)
    else []
  end.

Definition slots_fuel (current_time end_time : Z) : nat :=
  Z.to_nat ((end_time - current_time) / timedelta_minutes 30 + 1).

(** [get_available_slots(provider, service, date, buffer_minutes=15)].
    [now] is the instant returned by [timezone.now()]. *)
Definition get_available_slots (s : Store) (now : Z)
    (provider : ServiceProvider) (service : Service) (date : Z)
    (buffer_minutes : Z) : list Slot :=
  let day_of_week := weekday date in
  match availability_get s provider day_of_week with
  | None => []
  | Some availability =>
    let service_duration := duration_minutes service in
    let total_slot_duration := service_duration + buffer_minutes in
    let current_time := combine date (av_start_time availability) in
    let end_time := combine date (av_end_time availability) in
    slots_loop (slots_fuel current_time end_time) s provider date now
               service_duration end_time current_time
  end.

(* ===================================================================== *)
(** ** The store monad *)
(* ===================================================================== *)

Inductive Outcome (A : Type) :=
  | Ok (a : A)
  | Raise (e : Exn).
Arguments Ok {A} a.
Arguments Raise {A} e.

(** A computation reads and writes the store and either returns or raises.
    The connection is in autocommit mode: what was written before an
    exception stays written. *)
Definition M (A : Type) : Type := Store → Outcome A * Store.

#[global] Instance M_ret : MRet M := λ A a s, (Ok a, s).
#[global] Instance M_bind : MBind M := λ A B f m s,
  match m s with
  | (Ok a, s') => f a s'
  | (Raise e, s') => (Raise e, s')
  end.

Definition raise {A} (e : Exn) : M A := λ s, (Raise e, s).
Definition gets {A} (f : Store → A) : M A := λ s, (Ok (f s), s).
Definition modify (f : Store → Store) : M unit := λ s, (Ok tt, f s).

(* ===================================================================== *)
(** ** [appointments/utils.py]: validating one slot *)
(* ===================================================================== *)

(** *** [int(str)] and [str.split(':')] on ASCII text

    [int] strips the whitespace characters 9-13 and 32, takes one optional
    sign, and then needs decimal digits, where single underscores may stand
    between digits. Code points above 127 (for which Python also accepts
    the other Unicode decimal digits and spaces) are not digits here. *)

Definition is_space (c : ascii) : bool :=
  let n := Z.of_nat (nat_of_ascii c) in
  ((9 <=? n) && (n <=? 13)) || (n =? 32).

Definition digit_value (c : ascii) : option Z :=
  let n := Z.of_nat (nat_of_ascii c) in
  if (48 <=? n) && (n <=? 57) then Some (n - 48) else None.

Fixpoint lstrip (l : list ascii) : list ascii :=
  match l with
  | c :: l' => if is_space c then lstrip l' else l
  | [] => []
  end.

Definition strip (l : list ascii) : list ascii :=
  rev (lstrip (rev (lstrip l))).

(** The digits after the first one; [acc] is the value read so far. *)
Fixpoint int_digits (acc : Z) (l : list ascii) : option Z :=
  match l with
  | [] => Some acc
  | c :: l' =>
    if Ascii.eqb c "_" then
      match l' with
      | d :: l'' =>
        match digit_value d with
        | Some v => int_digits (acc * 10 + v) l''
        | None => None
        end
      | [] => None
      end
    else
      match digit_value c with
      | Some v => int_digits (acc * 10 + v) l'
      | None => None
      end
  end.

Definition int_unsigned (l : list ascii) : option Z :=
  match l with
  | d :: l' =>
    match digit_value d with
    | Some v => int_digits v l'
    | None => None
    end
  | [] => None
  end.

(** [int(s)]; [None] stands for [ValueError]. *)
Definition py_int (l : list ascii) : option Z :=
  match strip l with
  | c :: l' =>
    if Ascii.eqb c "+" then int_unsigned l'
    else if Ascii.eqb c "-" then Z.opp <$> int_unsigned l'
    else int_unsigned (c :: l')
  | [] => None
  end.

(** [s.split(':')]; [cur] is the current piece, reversed. *)
Fixpoint split_colon (cur l : list ascii) : list (list ascii) :=
  match l with
  | [] => [rev cur]
  | c :: l' =>
    if Ascii.eqb c ":" then rev cur :: split_colon [] l'
    else split_colon (c :: cur) l'
  end.

(** [hour, minute = map(int, time_str.split(':'));
     appointment_time = time(hour, minute)]; [None] when any step raises. *)
Definition parse_time_str (time_str : string) : option Z :=
  match split_colon [] (list_ascii_of_string time_str) with
  | [h; m] =>
    match py_int h, py_int m with
    | Some hour, Some minute => time_ hour minute
    | _, _ => None
    end
  | _ => None
  end.

(** The returned dictionary. *)
Record SlotCheck := mkSlotCheck {
  available : bool;
  reason : string
}.

(** [check_slot_availability(provider, service, date, time_str)] *)
Definition check_slot_availability (now : Z) (provider : ServiceProvider)
    (service : Service) (date : Z) (time_str : string) : M SlotCheck :=
  match parse_time_str time_str with
  | None => mret (mkSlotCheck false "Invalid time format")
  | Some appointment_time =>
    if (date =? dt_date (astimezone_ist now))
       && (localize_ist (combine date appointment_time) <? now)
    then mret (mkSlotCheck false "Time slot is in the past")
    else if date <? dt_date (astimezone_ist now)
    then mret (mkSlotCheck false "Date is in the past")
    else
      let day_of_week := weekday date in
      found ← gets (λ s, availability_get s provider day_of_week);
      match found with
      | None => mret (mkSlotCheck false "Provider not available on this day")
      | Some availability =>
        if (appointment_time <? av_start_time availability)
           || (av_end_time availability <=? appointment_time)
        then mret (mkSlotCheck false "Outside business hours")
        else
          let service_end :=
            combine date appointment_time
            + timedelta_minutes (duration_minutes service) in
          let closing_time := combine date (av_end_time availability) in
          if closing_time <? service_end
          then mret (mkSlotCheck false
                       "Service cannot be completed before closing time")
          else
            is_booked ← gets (λ s, slot_booked s provider date appointment_time);
            if is_booked : bool
            then mret (mkSlotCheck false "Time slot already booked")
            else mret (mkSlotCheck true "Available")
      end
  end.

(* ===================================================================== *)
(** ** [providers/models.py]: plan and usage-limit methods *)
(* ===================================================================== *)

(** [settings.FREE_PLAN_APPOINTMENT_LIMIT] *)
Definition FREE_PLAN_APPOINTMENT_LIMIT : Z := 5.

Definition is_pro (now : Z) (self : ServiceProvider) : bool :=
  match current_plan self with
  | pro =>
    match plan_end_date self with
    | None => true
    | Some end_date => utc_date now <=? end_date
    end
  | free => false
  end.

Definition has_pro_features (now : Z) (self : ServiceProvider) : bool :=
  is_pro now self.

Definition can_create_appointment (now : Z) (self : ServiceProvider) : bool :=
  if has_pro_features now self then true
  else appointments_this_month self <? FREE_PLAN_APPOINTMENT_LIMIT.

Definition set_appointments_this_month (n : Z) (p : ServiceProvider)
    : ServiceProvider :=
  mkServiceProvider (sp_pk p) (sp_user p) (unique_booking_url p)
    (current_plan p) (plan_end_date p) n (last_reset_date p) (sp_is_active p).

Definition set_last_reset_date (d : Z) (p : ServiceProvider)
    : ServiceProvider :=
  mkServiceProvider (sp_pk p) (sp_user p) (unique_booking_url p)
    (current_plan p) (plan_end_date p) (appointments_this_month p) d
    (sp_is_active p).

(** [self.save(update_fields=[...])] on a provider: an UPDATE of the listed
    columns of the row with the object's primary key, taking the values from
    the in-memory object [self]; [DatabaseError] when no row has that key. *)
Definition provider_save_update_fields (self : ServiceProvider)
    (write : ServiceProvider → ServiceProvider → ServiceProvider) : M unit :=
  row ← gets (λ s, providers s !! sp_pk self);
  match row with
  | Some r => modify (set_providers (insert (sp_pk self) (write self r)))
  | None => raise DatabaseError
  end.

(** [increment_appointment_count]: returns the mutated object. *)
Definition increment_appointment_count (self : ServiceProvider)
    : M ServiceProvider :=
  let self := set_appointments_this_month (appointments_this_month self + 1) self in
  _ ← provider_save_update_fields self
        (λ obj row, set_appointments_this_month (appointments_this_month obj) row);
  mret self.

(** [reset_monthly_counter] *)
Definition reset_monthly_counter (now : Z) (self : ServiceProvider)
    : M ServiceProvider :=
  let self := set_appointments_this_month 0 self in
  let self := set_last_reset_date (utc_date now) self in
  _ ← provider_save_update_fields self
        (λ obj row,
           set_last_reset_date (last_reset_date obj)
             (set_appointments_this_month (appointments_this_month obj) row));
  mret self.

(* ===================================================================== *)
(** ** [appointments/models.py] and [appointments/signals.py] *)
(* ===================================================================== *)

Definition set_pk (k : option Z) (a : Appointment) : Appointment :=
  mkAppointment k (service_provider a) (service a) (client a)
    (appointment_date a) (appointment_time a) (status a) (total_price a)
    (payment_status a) (payment_method a).

Definition set_status (st : Status) (a : Appointment) : Appointment :=
  mkAppointment (pk a) (service_provider a) (service a) (client a)
    (appointment_date a) (appointment_time a) st (total_price a)
    (payment_status a) (payment_method a).

Definition set_total_price (p : option Z) (a : Appointment) : Appointment :=
  mkAppointment (pk a) (service_provider a) (service a) (client a)
    (appointment_date a) (appointment_time a) (status a) p
    (payment_status a) (payment_method a).

Definition set_payment (ps : PaymentStatus) (m : string) (a : Appointment)
    : Appointment :=
  mkAppointment (pk a) (service_provider a) (service a) (client a)
    (appointment_date a) (appointment_time a) (status a) (total_price a)
    ps m.

(** The column sets that the modelled calls pass as [update_fields]. *)
Inductive UpdateFields :=
  | all_fields                       (* save() *)
  | only_status                      (* update_fields=['status'] *)
  | only_payment.                    (* ['payment_status', 'payment_method'] *)

(** What an UPDATE restricted to [uf] leaves in the row. *)
Definition write_columns (uf : UpdateFields) (self row : Appointment)
    : Appointment :=
  match uf with
  | all_fields => self
  | only_status => set_status (status self) row
  | only_payment => set_payment (payment_status self) (payment_method self) row
  end.

(** [not self.total_price]: unset or zero. *)
Definition price_unset (p : option Z) : bool :=
  match p with
  | None => true
  | Some v => v =? 0
  end.

(** [self.service]: the related row, [DoesNotExist] without one. *)
Definition related_service (self : Appointment) : M Service :=
  row ← gets (λ s, services s !! service self);
  match row with
  | Some svc => mret svc
  | None => raise DoesNotExist
  end.

(** [instance.service_provider]: the cached object when the instance was
    built from one, else the row fetched through the foreign key. *)
Definition related_provider (cached : option ServiceProvider)
    (self : Appointment) : M ServiceProvider :=
  match cached with
  | Some p => mret p
  | None =>
    row ← gets (λ s, providers s !! service_provider self);
    match row with
    | Some p => mret p
    | None => raise DoesNotExist
    end
  end.

(** The foreign keys of the instance point at rows. *)
Definition foreign_keys_ok (s : Store) (self : Appointment) : bool :=
  bool_decide (is_Some (providers s !! service_provider self))
  && bool_decide (is_Some (services s !! service self)).

(** [Model.save]: INSERT for an instance without primary key, else UPDATE;
    a plain [save()] whose UPDATE matches no row inserts, one with
    [update_fields] raises. The result is the instance and the [created]
    flag handed to [post_save]. Writing a dangling foreign key or a taken
    primary key is an [IntegrityError]. *)
Definition model_save (self : Appointment) (uf : UpdateFields)
    : M (Appointment * bool) :=
  let insert_row (k : Z) : M (Appointment * bool) :=
    s ← gets id;
    if foreign_keys_ok s self && bool_decide (appointments s !! k = None)
    then
      let self := set_pk (Some k) self in
      _ ← modify (set_appointments (insert k self));
      mret (self, true)
    else raise IntegrityError in
  match pk self with
  | None =>
    match uf with
    | all_fields =>
      k ← gets next_appointment_pk;
      _ ← modify (set_next_appointment_pk (k + 1));
      insert_row k
    | _ => raise ValueError    (* cannot force an update without a key *)
    end
  | Some k =>
    s ← gets id;
    match appointments s !! k, uf with
    | Some r, all_fields =>
      if foreign_keys_ok s self
      then _ ← modify (set_appointments (insert k self)); mret (self, false)
      else raise IntegrityError
    | Some r, _ =>
      _ ← modify (set_appointments (insert k (write_columns uf self r)));
      mret (self, false)
    | None, all_fields => insert_row k
    | None, _ => raise DatabaseError
    end
  end.

(** [signals.increment_appointment_counter], the [post_save] receiver. *)
Definition increment_appointment_counter (cached : option ServiceProvider)
    (instance : Appointment) (created : bool) : M unit :=
  if created then
    provider ← related_provider cached instance;
    _ ← increment_appointment_count provider;
    mret tt
  else mret tt.

(** [Appointment.save]. [cached] is the provider object the instance
    holds, if any. The auto-fill of the client's name, phone and e-mail only
    touches columns that are not modelled. *)
Definition Appointment_save (cached : option ServiceProvider)
    (self : Appointment) (uf : UpdateFields) : M Appointment :=
  self ← (if price_unset (total_price self)
          then svc ← related_service self;
               mret (set_total_price (Some (price svc)) self)
          else mret self);
  '(self, created) ← model_save self uf;
  _ ← increment_appointment_counter cached self created;
  mret self.

(** A keyword argument that a view hands over as the text of a request
    parameter: absent ([None]), a text its model field cannot convert, or a
    text with the value the field converts it to. *)
Inductive PostValue (A : Type) :=
  | Missing
  | Unconvertible
  | Converted (a : A).
Arguments Missing {A}.
Arguments Unconvertible {A}.
Arguments Converted {A} a.

(** [str.strip()]: the characters below 256 that Python counts as white
    space. Texts are sequences of code points below 256. *)
Definition is_whitespace (c : ascii) : bool :=
  let n := Z.of_nat (nat_of_ascii c) in
  ((9 <=? n) && (n <=? 13)) || ((28 <=? n) && (n <=? 32))
  || (n =? 133) || (n =? 160).

Fixpoint lstrip_whitespace (l : list ascii) : list ascii :=
  match l with
  | c :: l' => if is_whitespace c then lstrip_whitespace l' else l
  | [] => []
  end.

Definition str_strip (text : string) : string :=
  string_of_list_ascii
    (rev (lstrip_whitespace (rev (lstrip_whitespace (list_ascii_of_string text))))).

(** [not text] for a text that may be [None]. *)
Definition falsy (text : option string) : bool :=
  match text with
  | None => true
  | Some t => bool_decide (t = "")
  end.

(** [CustomUser.get_full_name] *)
Definition get_full_name (self : User) : string :=
  let full_name := str_strip (first_name self ++ " " ++ last_name self) in
  if bool_decide (full_name = "") then email self else full_name.

(** The keyword arguments of [Appointment.objects.create]. *)
Record AppointmentKwargs := mkAppointmentKwargs {
  kw_service_provider : ServiceProvider;
  kw_service_id : PostValue Z;
  kw_client : option User;
  kw_client_name : option string;
  kw_client_phone : option string;
  kw_client_email : string;
  kw_appointment_date : PostValue Z;
  kw_appointment_time : PostValue Z;
  kw_status : Status;
  kw_notes : string
}.

(** The engine's answer to the texts of an INSERT, column by column:
    [client_name] (200), [client_phone] (15), [client_email] (254) and
    [notes]. A [None] is no text. *)
Definition text_columns_error (s : Store) (client_name client_phone : option string)
    (client_email notes : string) : option Exn :=
  db_text_error s
    (option_list (pair (Some 200) <$> client_name)
     ++ option_list (pair (Some 15) <$> client_phone)
     ++ [(Some 254, client_email); (None, notes)]).

(** [Appointment.objects.create] with keyword arguments:
    [Appointment.save] on the new instance, which holds the very provider
    and client objects it was given and the texts as given. In the order of
    the source: the price is unset, so the service is read; the client's
    details are filled in when a client is given without a name; the INSERT
    converts the date and the time, is refused by the engine for a text it
    does not take, and fails, its key used up, on a NULL in [client_name],
    [client_phone], [appointment_date] or [appointment_time]; then
    [post_save] runs. The columns [client_name], [client_phone],
    [client_email] and [notes] are checked here and not kept in the rows of
    the model. *)
Definition Appointment_objects_create (kw : AppointmentKwargs)
    : M Appointment :=
  let provider := kw_service_provider kw in
  service ← match kw_service_id kw with
            | Missing => raise DoesNotExist
            | Unconvertible => raise ValueError
            | Converted service_id =>
              row ← gets (λ s, services s !! service_id);
              match row with
              | Some svc => mret (service_id, svc)
              | None => raise DoesNotExist
              end
            end;
  let '(client_name, client_phone, client_email) :=
    match kw_client kw with
    | Some client =>
      if falsy (kw_client_name kw)
      then (Some (get_full_name client), Some (default "" (phone client)),
            email client)
      else (kw_client_name kw, kw_client_phone kw, kw_client_email kw)
    | None => (kw_client_name kw, kw_client_phone kw, kw_client_email kw)
    end in
  match kw_appointment_date kw, kw_appointment_time kw with
  | Unconvertible, _ | _, Unconvertible => raise ValidationError
  | date, time =>
    text_error ← gets (λ s, text_columns_error s client_name client_phone
                                              client_email (kw_notes kw));
    match text_error with
    | Some e => raise e
    | None =>
      match client_name, client_phone, date, time with
      | Some _, Some _, Converted date, Converted time =>
        '(self, created) ←
          model_save (mkAppointment None (sp_pk provider) service.1
                        (user_pk <$> kw_client kw) date time (kw_status kw)
                        (Some (price service.2)) payment_pending "")
                     all_fields;
        _ ← increment_appointment_counter (Some provider) self created;
        mret self
      | _, _, _, _ =>
        k ← gets next_appointment_pk;
        _ ← modify (set_next_appointment_pk (k + 1));
        raise IntegrityError
      end
    end
  end.

(** [timezone.make_aware(datetime.combine(date, time))] *)
Definition appointment_datetime (self : Appointment) : Z :=
  localize_ist (combine (appointment_date self) (appointment_time self)).

Definition is_upcoming (now : Z) (self : Appointment) : bool :=
  (now <? appointment_datetime self) && status_active (status self).

Definition is_past (now : Z) (self : Appointment) : bool :=
  appointment_datetime self <? now.

Definition can_cancel (now : Z) (self : Appointment) : bool :=
  status_active (status self) && is_upcoming now self.

(** The three transitions return the instance as the call leaves it and
    the method's boolean result. *)
Definition cancel (now : Z) (self : Appointment) : M (Appointment * bool) :=
  if can_cancel now self then
    self ← Appointment_save None (set_status cancelled self) only_status;
    mret (self, true)
  else mret (self, false).

Definition confirm (self : Appointment) : M (Appointment * bool) :=
  if bool_decide (status self = pending) then
    self ← Appointment_save None (set_status confirmed self) only_status;
    mret (self, true)
  else mret (self, false).

Definition complete (now : Z) (self : Appointment) : M (Appointment * bool) :=
  if bool_decide (status self = confirmed) && is_past now self then
    self ← Appointment_save None (set_status completed self) only_status;
    mret (self, true)
  else mret (self, false).

Definition mark_paid (self : Appointment) (method : string) : M Appointment :=
  Appointment_save None (set_payment payment_paid method self) only_payment.

(* ===================================================================== *)
(** ** Views and the monthly reset command *)
(* ===================================================================== *)

Inductive Method := GET | POST.

(** A request: [user] is [None] for an anonymous visitor; [method] is
    [POST] or anything else. The POST fields are [request.POST.get] of
    their names: [Missing] or [None] when the request does not carry the
    parameter. *)
Record Request := mkRequest {
  user : option User;
  method : Method;
  POST_service : PostValue Z;
  POST_appointment_date : PostValue Z;
  POST_appointment_time : PostValue Z;
  POST_client_name : option string;
  POST_client_phone : option string;
  POST_client_email : option string;
  POST_notes : option string
}.

Inductive Response :=
  | RedirectLogin
  | RedirectPublicBooking
  | RedirectBookingSuccess (appointment_pk : option Z)
  | RedirectUpgradePrompt
  | RedirectSetupProfile
  | RedirectAppointmentDetail (appointment_pk : option Z)
  | RenderCreateAppointment.

(** [get_object_or_404(ServiceProvider, unique_booking_url=slug,
      is_active=True)] *)
Definition get_provider_or_404 (slug : string) : M ServiceProvider :=
  rows ← gets (λ s,
    List.filter (λ p, bool_decide (unique_booking_url p = slug) && sp_is_active p)
                (map_to_list (providers s)).*2);
  match rows with
  | [] => raise Http404
  | [p] => mret p
  | _ => raise MultipleObjectsReturned
  end.

(** [request.user.provider_profile]: the reverse side of the one-to-one
    field; [None] when the access raises [RelatedObjectDoesNotExist]. *)
Definition provider_profile (s : Store) (u : User) : option ServiceProvider :=
  queryset_get
    (List.filter (λ p, sp_user p =? user_pk u) (map_to_list (providers s)).*2).

(** [appointments.views.confirm_booking(request, slug)] from the line
    after [provider] is loaded, for the authenticated user [u]. *)
Definition confirm_booking_body (request : Request) (u : User)
    (provider : ServiceProvider) : M Response :=
  match method request with
  | POST =>
    let service_id := POST_service request in
    let appointment_date := POST_appointment_date request in
    let appointment_time := POST_appointment_time request in
    let client_phone := POST_client_phone request in
    let notes := default "" (POST_notes request) in
    let client_name := str_strip (first_name u ++ " " ++ last_name u) in
    client_name ← (if bool_decide (client_name = "")
                   then raise AttributeError     (* request.user.username *)
                   else mret client_name);
    let client_email := email u in
    appointment ← Appointment_objects_create
      (mkAppointmentKwargs provider service_id (Some u) (Some client_name)
         client_phone client_email appointment_date appointment_time
         pending notes);
    mret (RedirectBookingSuccess (pk appointment))
  | GET => mret RedirectPublicBooking
  end.

(** [appointments.views.confirm_booking(request, slug)] *)
Definition confirm_booking (request : Request) (slug : string) : M Response :=
  match user request with
  | None => mret RedirectLogin
  | Some u =>
    provider ← get_provider_or_404 slug;
    confirm_booking_body request u provider
  end.

(** The decorators of [providers.views.create_appointment], outermost
    first. *)
Definition login_required (view : Request → M Response) (request : Request)
    : M Response :=
  match user request with
  | None => mret RedirectLogin
  | Some _ => view request
  end.

Definition provider_required (view : Request → M Response)
    (request : Request) : M Response :=
  match user request with
  | None => mret RedirectLogin
  | Some u =>
    if negb (is_provider u) then mret RedirectLogin
    else
      profile ← gets (λ s, provider_profile s u);
      match profile with
      | None => mret RedirectSetupProfile
      | Some _ => view request
      end
  end.

Definition check_appointment_limit (now : Z) (view : Request → M Response)
    (request : Request) : M Response :=
  match user request with
  | None => mret RedirectLogin
  | Some u =>
    if negb (is_provider u) then mret RedirectLogin
    else
      profile ← gets (λ s, provider_profile s u);
      match profile with
      | Some provider =>
        if negb (can_create_appointment now provider)
        then mret RedirectUpgradePrompt
        else view request
      | None => view request        (* except AttributeError: pass *)
      end
  end.

(** The body of [providers.views.create_appointment]. *)
Definition create_appointment_body (request : Request) : M Response :=
  match user request with
  | None => raise DoesNotExist
  | Some u =>
    profile ← gets (λ s, provider_profile s u);
    match profile with
    | None => raise DoesNotExist
    | Some provider =>
      match method request with
      | POST =>
        appointment ← Appointment_objects_create
          (mkAppointmentKwargs provider (POST_service request) None
             (POST_client_name request) (POST_client_phone request)
             (default "" (POST_client_email request))
             (POST_appointment_date request) (POST_appointment_time request)
             confirmed (default "" (POST_notes request)));
        mret (RedirectAppointmentDetail (pk appointment))
      | GET => mret RenderCreateAppointment
      end
    end
  end.

Definition create_appointment (now : Z) : Request → M Response :=
  login_required
    (provider_required
       (check_appointment_limit now create_appointment_body)).

(** The loop of [reset_monthly_limits.Command.handle] over the queryset
    [providers]. *)
Fixpoint reset_loop (now : Z) (providers : list ServiceProvider)
    (reset_count : Z) : M Z :=
  match providers with
  | [] => mret reset_count
  | provider :: rest =>
    _ ← reset_monthly_counter now provider;
    reset_loop now rest (reset_count + 1)
  end.

(** [Command.handle]: the result is [reset_count], which the command
    prints. The queryset is [ServiceProvider.objects.filter(is_active=True)];
    the order of its rows does not matter to the loop. *)
Definition handle (now : Z) : M Z :=
  providers ← gets (λ s,
    List.filter sp_is_active (map_to_list (providers s)).*2);
  reset_loop now providers 0.

(** [utils.tasks.reset_monthly_appointment_counters], the periodic task
    with the same loop: the result is [reset_count]. The queryset is
    [ServiceProvider.objects.filter(current_plan='free')]. *)
Definition reset_monthly_appointment_counters (now : Z) : M Z :=
  providers ← gets (λ s,
    List.filter (λ p, bool_decide (current_plan p = free))
                (map_to_list (providers s)).*2);
  reset_loop now providers 0.

(* ===================================================================== *)
(** ** Auxiliary definitions for the statements *)
(* ===================================================================== *)

(** The start datetimes the loop emits: [slots_loop] without the rendering
    of each slot. *)
Fixpoint slot_starts (fuel : nat) (service_duration end_time current_time : Z)
    : list Z :=
  match fuel with
  | O => []
  | S fuel' =>
    if current_time <? end_time then
      (if current_time + timedelta_minutes service_duration <=? end_time
       then [current_time] else [])
      ++ slot_starts fuel' service_duration end_time
                     (current_time + timedelta_minutes 30)
    else []
  end.

(** The dictionary the loop builds for the start time [slot_time]. *)
Definition render_slot (s : Store) (provider : ServiceProvider)
    (date now slot_time : Z) : Slot :=
  let is_past :=
    if date =? dt_date (astimezone_ist now)
    then localize_ist (combine date slot_time) <? now
    else false in
  let is_booked := slot_booked s provider date slot_time in
  mkSlot (strftime_HM slot_time) (strftime_IMp slot_time)
         (negb is_booked && negb is_past) is_past is_booked.

(** The reasons of [check_slot_availability] as the closed enumeration of
    the specification, with the message each one stands for. *)
Inductive Reason :=
  | INVALID_FORMAT
  | PAST_DATE
  | PAST_TIME
  | CLOSED_DAY
  | OUTSIDE_HOURS
  | EXCEEDS_CLOSING
  | SLOT_TAKEN
  | OK.

#[global] Instance Reason_eq_dec : EqDecision Reason.
Proof. solve_decision. Defined.

Definition reason_message (r : Reason) : string :=
  match r with
  | INVALID_FORMAT => "Invalid time format"
  | PAST_DATE => "Date is in the past"
  | PAST_TIME => "Time slot is in the past"
  | CLOSED_DAY => "Provider not available on this day"
  | OUTSIDE_HOURS => "Outside business hours"
  | EXCEEDS_CLOSING => "Service cannot be completed before closing time"
  | SLOT_TAKEN => "Time slot already booked"
  | OK => "Available"
  end.

(** The six checks in the words of the specification; each one answers for
    a candidate that passed the checks before it. *)
Definition format_ok (time_str : string) : option Z := parse_time_str time_str.

Definition past_check (now date time : Z) : option Reason :=
  if date <? dt_date (astimezone_ist now) then Some PAST_DATE
  else if (date =? dt_date (astimezone_ist now))
          && (localize_ist (combine date time) <? now) then Some PAST_TIME
  else None.

Definition open_day (s : Store) (provider : ServiceProvider) (date : Z)
    : option Availability :=
  availability_get s provider (weekday date).

Definition within_hours (av : Availability) (time : Z) : bool :=
  (av_start_time av <=? time) && (time <? av_end_time av).

Definition fits_before_close (av : Availability) (service : Service)
    (time : Z) : bool :=
  time + timedelta_minutes (duration_minutes service) <=? av_end_time av.

(** [validate_candidate] of the specification: the reason of the first
    failing check in the stated order, [OK] when none fails. *)
Definition validate_candidate (s : Store) (now : Z)
    (provider : ServiceProvider) (service : Service) (date : Z)
    (time_str : string) : Reason :=
  match format_ok time_str with
  | None => INVALID_FORMAT
  | Some time =>
    match past_check now date time with
    | Some r => r
    | None =>
      match open_day s provider date with
      | None => CLOSED_DAY
      | Some av =>
        if negb (within_hours av time) then OUTSIDE_HOURS
        else if negb (fits_before_close av service time) then EXCEEDS_CLOSING
        else if slot_booked s provider date time then SLOT_TAKEN
        else OK
      end
    end
  end.

(** Two distinct active appointments of one provider never share a date
    and time. *)
Definition no_double_booking (s : Store) : Prop :=
  ∀ k1 k2 a1 a2,
    k1 ≠ k2 →
    appointments s !! k1 = Some a1 →
    appointments s !! k2 = Some a2 →
    status_active (status a1) = true →
    status_active (status a2) = true →
    service_provider a1 = service_provider a2 →
    (appointment_date a1, appointment_time a1)
      ≠ (appointment_date a2, appointment_time a2).

(** One booking operation: the public view or the provider's manual
    creation, on any request. *)
Inductive booking_step : Store → Store → Prop :=
  | step_confirm_booking request slug s r s' :
      confirm_booking request slug s = (r, s') → booking_step s s'
  | step_create_appointment now request s r s' :
      create_appointment now request s = (r, s') → booking_step s s'.

(** Stores reached by booking operations from a store without
    appointments. *)
Definition reachable (s : Store) : Prop :=
  ∃ s0, appointments s0 = ∅ ∧ rtc booking_step s0 s.

(** The store with one more appointment row, under key [k]. *)
Definition with_appointment (k : Z) (a : Appointment) (s : Store) : Store :=
  set_appointments (insert k a) s.

(** [m] answers and writes the same with and without the row [a] under
    key [k]. *)
Definition blind_to {A} (k : Z) (a : Appointment) (m : M A) (s : Store) : Prop :=
  m (with_appointment k a s)
  = (let (o, s') := m s in (o, with_appointment k a s')).

(** Every provider row is stored under its own primary key. *)
Definition provider_keys_ok (s : Store) : Prop :=
  map_Forall (λ k p, sp_pk p = k) (providers s).

(** The row a reset leaves, and what the command does to a row. *)
Definition reset_row (now : Z) (p : ServiceProvider) : ServiceProvider :=
  set_last_reset_date (utc_date now) (set_appointments_this_month 0 p).

Definition reset_if_active (now : Z) (p : ServiceProvider) : ServiceProvider :=
  if sp_is_active p then reset_row now p else p.

(** The statuses without outgoing transition. *)
Definition terminal (st : Status) : Prop :=
  st = completed ∨ st = cancelled ∨ st = no_show.

(** The row [Appointment.objects.create] stores under key [k], and the
    store it leaves when [row] was the provider's row before. *)
Definition created_row (provider : ServiceProvider) (service_id : Z)
    (client : option Z) (date time : Z) (st : Status) (svc : Service)
    (k : Z) : Appointment :=
  mkAppointment (Some k) (sp_pk provider) service_id client date time st
                (Some (price svc)) payment_pending "".

Definition store_after_create (s : Store) (provider row : ServiceProvider)
    (a : Appointment) : Store :=
  mkStore
    (<[sp_pk provider :=
         set_appointments_this_month (appointments_this_month provider + 1) row]>
       (providers s))
    (services s) (availability_slots s) (service_availability s)
    (<[next_appointment_pk s := a]> (appointments s))
    (next_appointment_pk s + 1) (db_text_error s).

Definition set_service_availability (rows : list ServiceAvailability)
    (s : Store) : Store :=
  mkStore (providers s) (services s) (availability_slots s) rows
          (appointments s) (next_appointment_pk s) (db_text_error s).

(* --------------------------------------------------------------------- *)
(** *** Example data *)

Definition monday : Z := 738886.     (* 2024-01-01 *)
Definition tuesday : Z := 738887.    (* 2024-01-02 *)
Definition nine : Z := 9 * US_PER_HOUR.

(** A FREE-plan salon that has used [used] appointments this month, with a
    sixty-minute service; open Monday 09:00-17:00 and Tuesday 09:00-18:00;
    the service has a Tuesday row 10:00-14:00 of its own. *)
Definition salon (used : Z) : ServiceProvider :=
  mkServiceProvider 1 10 "salon" free None used 738857 true.

Definition haircut : Service := mkService 7 1 60 50000 true.

Definition monday_hours : Availability :=
  mkAvailability 1 0 nine (17 * US_PER_HOUR) true.

Definition salon_store (used : Z) : Store :=
  mkStore {[1 := salon used]} {[7 := haircut]}
    [ monday_hours; mkAvailability 1 1 nine (18 * US_PER_HOUR) true ]
    [ mkServiceAvailability 7 1 (10 * US_PER_HOUR) (14 * US_PER_HOUR) true ]
    ∅ 1 postgresql.

(** A signed-in client booking the service on Monday at nine, and the
    salon's owner entering the same appointment by hand. *)
Definition asha : User :=
  mkUser 20 false "Asha" "Rao" "asha@example.com" None.

Definition owner : User :=
  mkUser 10 true "Ravi" "Kumar" "ravi@example.com" None.

Definition client_request : Request :=
  mkRequest (Some asha) POST (Converted 7) (Converted monday) (Converted nine)
            None (Some "9876543210") None None.

Definition owner_request : Request :=
  mkRequest (Some owner) POST (Converted 7) (Converted monday) (Converted nine)
            (Some "Asha Rao") (Some "9876543210") None None.

(** The store after the client's request went through once. *)
Definition booked_once : Store :=
  (confirm_booking client_request "salon" (salon_store 0)).2.

(** The row that request stored. *)
Definition monday_booking (k : Z) : Appointment :=
  mkAppointment (Some k) 1 7 (Some 20) monday nine pending (Some 50000)
                payment_pending "".

(** The salon's store when a confirmed appointment already sits on Monday
    at nine, under key 5. *)
Definition occupied_store : Store :=
  with_appointment 5 (set_status confirmed (monday_booking 5)) (salon_store 0).

(** Midnight UTC of 2023-12-25, a week before [monday], and noon UTC of
    2024-01-08, a week after it. *)
Definition christmas : Z := combine 738879 0.
Definition week_later : Z := combine 738893 (12 * US_PER_HOUR).

(** The salon next to a deactivated provider that used up its quota. *)
Definition dormant : ServiceProvider :=
  mkServiceProvider 2 11 "dormant" free None 5 738857 false.

Definition two_provider_store : Store :=
  mkStore {[1 := salon 5; 2 := dormant]} ∅ [] [] ∅ 1 postgresql.

(* ===================================================================== *)
(** ** Slot generation: the loop and its start times *)
(* ===================================================================== *)

Lemma step_pos : 0 < timedelta_minutes 30.
Proof. reflexivity. Qed.

(** The loop renders exactly the start times of [slot_starts]. *)
Lemma slots_loop_starts fuel s provider date now dur e c :
  slots_loop fuel s provider date now dur e c
  = map (λ dt, render_slot s provider date now (dt_time dt))
        (slot_starts fuel dur e c).
Proof.
  revert c. induction fuel as [|fuel IH]; intros c; simpl; [done|].
  destruct (c <? e); [|done].
  rewrite map_app, <- IH.
  destruct (c + timedelta_minutes dur <=? e); done.
Qed.

(** Every emitted start lies on the thirty-minute grid from the first
    candidate, before the end, and leaves room for the service. *)
Lemma slot_starts_sound fuel dur e c :
  Forall (λ x, (∃ k, 0 <= k ∧ x = c + k * timedelta_minutes 30)
               ∧ x < e ∧ x + timedelta_minutes dur <= e)
         (slot_starts fuel dur e c).
Proof.
  revert c. induction fuel as [|fuel IH]; intros c; simpl; [constructor|].
  destruct (Z.ltb_spec c e) as [Hlt|]; [|constructor].
  apply Forall_app. split.
  - destruct (Z.leb_spec (c + timedelta_minutes dur) e); constructor; [|constructor].
    split; [exists 0; lia | lia].
  - eapply Forall_impl; [apply IH|].
    intros x [[k [Hk ->]] Hx]. split; [|done].
    exists (k + 1). lia.
Qed.

Lemma slot_starts_sorted fuel dur e c :
  StronglySorted Z.lt (slot_starts fuel dur e c).
Proof.
  revert c. induction fuel as [|fuel IH]; intros c; simpl; [constructor|].
  destruct (c <? e); [|constructor].
  destruct (c + timedelta_minutes dur <=? e); simpl; [|apply IH].
  constructor; [apply IH|].
  eapply Forall_impl; [apply slot_starts_sound|].
  intros x [[k [Hk ->]] _]. pose proof step_pos. nia.
Qed.

(** Given fuel for [k] more steps, the [k]-th grid point is emitted when it
    passes the two tests. *)
Lemma slot_starts_complete fuel dur e c k :
  0 <= k → (Z.to_nat k < fuel)%nat →
  c + k * timedelta_minutes 30 < e →
  c + k * timedelta_minutes 30 + timedelta_minutes dur <= e →
  c + k * timedelta_minutes 30 ∈ slot_starts fuel dur e c.
Proof.
  revert c k. induction fuel as [|fuel IH]; intros c k Hk Hf Hlt Hfit; [lia|].
  pose proof step_pos as Hs. simpl.
  destruct (Z.ltb_spec c e) as [Hc|Hc]; [|nia].
  apply elem_of_app.
  destruct (Z.eq_dec k 0) as [->|Hne].
  - left. replace (c + 0 * timedelta_minutes 30) with c in * by lia.
    destruct (Z.leb_spec (c + timedelta_minutes dur) e); [|lia].
    apply list_elem_of_singleton. done.
  - right.
    replace (c + k * timedelta_minutes 30)
      with (c + timedelta_minutes 30 + (k - 1) * timedelta_minutes 30) in * by lia.
    apply IH; [lia|lia|done|done].
Qed.

(** [slots_fuel] covers every grid point before the end: the loop never
    stops for lack of fuel. *)
Lemma slots_fuel_enough c e k :
  0 <= k → c + k * timedelta_minutes 30 < e →
  (Z.to_nat k < slots_fuel c e)%nat.
Proof.
  intros Hk Hlt. unfold slots_fuel. pose proof step_pos as Hs.
  assert (k <= (e - c) / timedelta_minutes 30).
  { apply Z.div_le_lower_bound; lia. }
  lia.
Qed.

Lemma slot_starts_shift d fuel dur e c :
  slot_starts fuel dur (d + e) (d + c)
  = map (Z.add d) (slot_starts fuel dur e c).
Proof.
  revert c. induction fuel as [|fuel IH]; intros c; simpl; [done|].
  replace (d + c <? d + e) with (c <? e) by (apply eq_true_iff_eq; rewrite !Z.ltb_lt; lia).
  destruct (c <? e); [|done].
  replace (d + c + timedelta_minutes dur <=? d + e)
    with (c + timedelta_minutes dur <=? e)
    by (apply eq_true_iff_eq; rewrite !Z.leb_le; lia).
  rewrite map_app, <- IH.
  replace (d + c + timedelta_minutes 30) with (d + (c + timedelta_minutes 30)) by lia.
  destruct (c + timedelta_minutes dur <=? e); done.
Qed.

Lemma slots_fuel_shift d c e : slots_fuel (d + c) (d + e) = slots_fuel c e.
Proof. unfold slots_fuel. do 2 f_equal. f_equal. lia. Qed.

Lemma dt_time_shift date x :
  0 <= x < US_PER_DAY → dt_time (date * US_PER_DAY + x) = x.
Proof.
  intros Hx. unfold dt_time.
  rewrite Z.add_comm, Z_mod_plus_full. by apply Z.mod_small.
Qed.

(** With valid opening and closing times the slot list is the rendering of
    the times of day [slot_starts] yields from the opening time. *)
Lemma get_available_slots_starts s now provider service date buffer av :
  availability_get s provider (weekday date) = Some av →
  valid_time (av_start_time av) → valid_time (av_end_time av) →
  get_available_slots s now provider service date buffer
  = map (render_slot s provider date now)
        (slot_starts (slots_fuel (av_start_time av) (av_end_time av))
                     (duration_minutes service)
                     (av_end_time av) (av_start_time av)).
Proof.
  intros Hav [Hs0 Hs1] [He0 He1]. unfold get_available_slots. rewrite Hav.
  cbv zeta. rewrite slots_loop_starts. unfold combine.
  rewrite slots_fuel_shift, slot_starts_shift, map_map.
  apply map_ext_Forall.
  eapply Forall_impl; [apply slot_starts_sound|].
  intros x [[k [Hk Hx]] [Hlt _]]. simpl.
  f_equal. apply dt_time_shift. pose proof step_pos. nia.
Qed.

Lemma slots_loop_not_today fuel s provider date now dur e c :
  date ≠ dt_date (astimezone_ist now) →
  slots_loop fuel s provider date now dur e c
  = map (λ t, let b := slot_booked s provider date t in
              mkSlot (strftime_HM t) (strftime_IMp t) (negb b) false b)
        (map dt_time (slot_starts fuel dur e c)).
Proof.
  intros Hne. rewrite slots_loop_starts, map_map. apply map_ext. intros dt.
  unfold render_slot. apply Z.eqb_neq in Hne. rewrite Hne. simpl.
  by rewrite andb_true_r.
Qed.

(** The "already booked" query holds exactly when an active appointment of
    the provider sits on the date and time. *)
Lemma slot_booked_iff s provider date time :
  slot_booked s provider date time = true
  ↔ ∃ k a, appointments s !! k = Some a
           ∧ service_provider a = sp_pk provider
           ∧ appointment_date a = date
           ∧ appointment_time a = time
           ∧ (status a = pending ∨ status a = confirmed).
Proof.
  unfold slot_booked. rewrite existsb_exists. split.
  - intros [[k a] [Hin Hocc]]. exists k, a.
    apply list_elem_of_In, elem_of_map_to_list in Hin.
    unfold occupies in Hocc. simpl in Hocc.
    repeat (apply andb_prop in Hocc as [Hocc ?]).
    split; [done|]. repeat split; try by apply Z.eqb_eq.
    destruct (status a); simpl in *; auto; discriminate.
  - intros (k & a & Hk & Hp & Hd & Ht & Hst). exists (k, a). split.
    + by apply list_elem_of_In, elem_of_map_to_list.
    + unfold occupies. simpl. rewrite Hp, Hd, Ht, !Z.eqb_refl. simpl.
      by destruct Hst as [-> | ->].
Qed.

(* ===================================================================== *)
(** ** Running the monadic code *)
(* ===================================================================== *)

Ltac run_m :=
  unfold mbind, M_bind, mret, M_ret, gets, modify, raise; simpl.

Lemma validate_candidate_OK_iff s now provider service date time_str :
  validate_candidate s now provider service date time_str = OK
  ↔ ∃ time av,
      format_ok time_str = Some time
      ∧ past_check now date time = None
      ∧ open_day s provider date = Some av
      ∧ within_hours av time = true
      ∧ fits_before_close av service time = true
      ∧ slot_booked s provider date time = false.
Proof.
  unfold validate_candidate. split.
  - destruct (format_ok time_str) as [time|]; [|done].
    destruct (past_check now date time) eqn:Hp.
    { intros ->. unfold past_check in Hp.
      repeat destruct (_ : bool) in Hp; done. }
    destruct (open_day s provider date) as [av|]; [|done].
    destruct (within_hours av time) eqn:Hw; [|done].
    destruct (fits_before_close av service time) eqn:Hf; [|done].
    destruct (slot_booked s provider date time) eqn:Hb; [done|].
    intros _. by exists time, av.
  - intros (time & av & -> & -> & -> & -> & -> & ->). done.
Qed.

Lemma check_slot_availability_eq now provider service date time_str s :
  let r := validate_candidate s now provider service date time_str in
  check_slot_availability now provider service date time_str s
  = (Ok (mkSlotCheck (bool_decide (r = OK)) (reason_message r)), s).
Proof.
  unfold validate_candidate, check_slot_availability, format_ok, past_check,
    open_day, within_hours, fits_before_close.
  destruct (parse_time_str time_str) as [time|]; simpl; [|done].
  set (today := dt_date (astimezone_ist now)).
  destruct (Z.ltb_spec date today) as [Hd|Hd].
  { replace (date =? today) with false by (symmetry; apply Z.eqb_neq; lia).
    done. }
  destruct ((date =? today) && (localize_ist (combine date time) <? now));
    [done|].
  run_m.
  destruct (availability_get s provider (weekday date)) as [av|]; simpl;
    [|done].
  rewrite (Z.ltb_antisym (av_start_time av) time).
  rewrite (Z.leb_antisym time (av_end_time av)).
  rewrite <- negb_andb.
  destruct (negb _); simpl; [done|].
  replace (combine date (av_end_time av)
           <? combine date time + timedelta_minutes (duration_minutes service))
    with (negb (time + timedelta_minutes (duration_minutes service)
                <=? av_end_time av)).
  2:{ unfold combine. rewrite <- Z.ltb_antisym.
      apply eq_true_iff_eq. rewrite !Z.ltb_lt. lia. }
  destruct (negb _); simpl; [done|].
  destruct (slot_booked s provider date time); done.
Qed.

Lemma mark_paid_statuses self method_ s k :
  status <$> (appointments (mark_paid self method_ s).2 !! k)
  = status <$> (appointments s !! k).
Proof.
  unfold mark_paid, Appointment_save, related_service, model_save,
    increment_appointment_counter.
  run_m.
  destruct (price_unset (total_price self)); simpl.
  - destruct (services s !! service self); simpl; [|done].
    destruct (pk self) as [k'|]; simpl; [|done].
    destruct (appointments s !! k') as [r|] eqn:Hr; simpl; [|done].
    destruct (decide (k' = k)) as [->|Hne].
    + rewrite lookup_insert_eq, Hr. done.
    + by rewrite lookup_insert_ne.
  - destruct (pk self) as [k'|]; simpl; [|done].
    destruct (appointments s !! k') as [r|] eqn:Hr; simpl; [|done].
    destruct (decide (k' = k)) as [->|Hne].
    + rewrite lookup_insert_eq, Hr. done.
    + by rewrite lookup_insert_ne.
Qed.

(** [Appointment.objects.create] on a store that holds the provider's row
    and the service, with a free next key. *)
Lemma create_ok s kw row service_id svc client_name client_phone date time :
  kw_service_id kw = Converted service_id →
  services s !! service_id = Some svc →
  kw_client_name kw = Some client_name →
  client_name ≠ "" →
  kw_client_phone kw = Some client_phone →
  kw_appointment_date kw = Converted date →
  kw_appointment_time kw = Converted time →
  text_columns_error s (Some client_name) (Some client_phone)
                     (kw_client_email kw) (kw_notes kw) = None →
  providers s !! sp_pk (kw_service_provider kw) = Some row →
  appointments s !! next_appointment_pk s = None →
  let a := created_row (kw_service_provider kw) service_id
             (user_pk <$> kw_client kw) date time (kw_status kw) svc
             (next_appointment_pk s) in
  Appointment_objects_create kw s
  = (Ok a, store_after_create s (kw_service_provider kw) row a).
Proof.
  intros Hsid Hsvc Hname Hne Hphone Hdate Htime Htext Hrow Hfresh a.
  unfold Appointment_objects_create.
  rewrite Hsid, Hname, Hphone, Hdate, Htime.
  assert (Hfalsy : falsy (Some client_name) = false).
  { simpl. by apply bool_decide_eq_false_2. }
  rewrite Hfalsy.
  unfold model_save, increment_appointment_counter, related_provider,
    increment_appointment_count, provider_save_update_fields, foreign_keys_ok.
  run_m. rewrite Hsvc. simpl.
  destruct (kw_client kw); simpl; rewrite Htext; simpl;
    rewrite Hrow, Hsvc, Hfresh; simpl; rewrite Hrow; done.
Qed.

Lemma confirm_booking_body_ok s request u provider row service_id svc
    client_phone date time :
  method request = POST →
  POST_service request = Converted service_id →
  POST_appointment_date request = Converted date →
  POST_appointment_time request = Converted time →
  POST_client_phone request = Some client_phone →
  str_strip (first_name u ++ " " ++ last_name u) ≠ "" →
  text_columns_error s (Some (str_strip (first_name u ++ " " ++ last_name u)))
                     (Some client_phone) (email u)
                     (default "" (POST_notes request)) = None →
  providers s !! sp_pk provider = Some row →
  services s !! service_id = Some svc →
  appointments s !! next_appointment_pk s = None →
  let a := created_row provider service_id (Some (user_pk u)) date time
             pending svc (next_appointment_pk s) in
  confirm_booking_body request u provider s
  = (Ok (RedirectBookingSuccess (Some (next_appointment_pk s))),
     store_after_create s provider row a).
Proof.
  intros Hm Hps Hpd Hpt Hphone Hname Htext Hrow Hsvc Hfresh a.
  unfold confirm_booking_body. rewrite Hm. cbv zeta.
  rewrite bool_decide_eq_false_2 by done.
  unfold mbind, M_bind, mret, M_ret.
  erewrite create_ok; try done; simpl; try done.
Qed.

Lemma confirm_booking_ok s request slug u provider row service_id svc
    client_phone date time :
  user request = Some u →
  method request = POST →
  POST_service request = Converted service_id →
  POST_appointment_date request = Converted date →
  POST_appointment_time request = Converted time →
  POST_client_phone request = Some client_phone →
  str_strip (first_name u ++ " " ++ last_name u) ≠ "" →
  text_columns_error s (Some (str_strip (first_name u ++ " " ++ last_name u)))
                     (Some client_phone) (email u)
                     (default "" (POST_notes request)) = None →
  get_provider_or_404 slug s = (Ok provider, s) →
  providers s !! sp_pk provider = Some row →
  services s !! service_id = Some svc →
  appointments s !! next_appointment_pk s = None →
  let a := created_row provider service_id (Some (user_pk u)) date time
             pending svc (next_appointment_pk s) in
  confirm_booking request slug s
  = (Ok (RedirectBookingSuccess (Some (next_appointment_pk s))),
     store_after_create s provider row a).
Proof.
  intros Hu Hm Hps Hpd Hpt Hphone Hname Htext Hget Hrow Hsvc Hfresh a.
  unfold confirm_booking. rewrite Hu.
  unfold mbind, M_bind at 1. rewrite Hget.
  by eapply confirm_booking_body_ok.
Qed.

Lemma create_appointment_ok now s request u provider row service_id svc
    client_name client_phone date time :
  user request = Some u →
  is_provider u = true →
  provider_profile s u = Some provider →
  can_create_appointment now provider = true →
  method request = POST →
  POST_service request = Converted service_id →
  POST_appointment_date request = Converted date →
  POST_appointment_time request = Converted time →
  POST_client_name request = Some client_name →
  client_name ≠ "" →
  POST_client_phone request = Some client_phone →
  text_columns_error s (Some client_name) (Some client_phone)
                     (default "" (POST_client_email request))
                     (default "" (POST_notes request)) = None →
  providers s !! sp_pk provider = Some row →
  services s !! service_id = Some svc →
  appointments s !! next_appointment_pk s = None →
  let a := created_row provider service_id None date time
             confirmed svc (next_appointment_pk s) in
  create_appointment now request s
  = (Ok (RedirectAppointmentDetail (Some (next_appointment_pk s))),
     store_after_create s provider row a).
Proof.
  intros Hu Hp Hprof Hcan Hm Hps Hpd Hpt Hname Hne Hphone Htext Hrow Hsvc
    Hfresh a.
  unfold create_appointment, login_required, provider_required,
    check_appointment_limit, create_appointment_body.
  unfold mbind, M_bind, gets.
  repeat (progress (rewrite ?Hu, ?Hp, ?Hprof, ?Hcan, ?Hm;
                    cbv beta iota delta [negb])).
  erewrite create_ok; try done; simpl; try done.
Qed.

Lemma create_appointment_over_quota now s request u provider :
  user request = Some u →
  is_provider u = true →
  provider_profile s u = Some provider →
  can_create_appointment now provider = false →
  create_appointment now request s = (Ok RedirectUpgradePrompt, s).
Proof.
  intros Hu Hp Hprof Hcan.
  unfold create_appointment, login_required, provider_required,
    check_appointment_limit.
  unfold mbind, M_bind, gets.
  repeat (progress (rewrite ?Hu, ?Hp, ?Hprof, ?Hcan;
                    cbv beta iota delta [negb])).
  done.
Qed.

Lemma slot_booked_after_create s provider row a date time :
  service_provider a = sp_pk provider →
  appointment_date a = date →
  appointment_time a = time →
  status_active (status a) = true →
  slot_booked (store_after_create s provider row a) provider date time = true.
Proof.
  intros Hp Hd Ht Hst. apply slot_booked_iff.
  exists (next_appointment_pk s), a. simpl.
  rewrite lookup_insert_eq. repeat split; try done.
  destruct (status a); simpl in Hst; auto; discriminate.
Qed.

Lemma save_new_instance s cached self row svc :
  pk self = None →
  providers s !! service_provider self = Some row →
  sp_pk row = service_provider self →
  cached = None ∨ cached = Some row →
  services s !! service self = Some svc →
  appointments s !! next_appointment_pk s = None →
  ∃ a s',
    Appointment_save cached self all_fields s = (Ok a, s')
    ∧ pk a = Some (next_appointment_pk s)
    ∧ appointments s' = <[next_appointment_pk s := a]> (appointments s)
    ∧ providers s'
      = <[service_provider self :=
            set_appointments_this_month (appointments_this_month row + 1) row]>
          (providers s).
Proof.
  intros Hpk Hrow Hkey Hcached Hsvc Hfresh.
  unfold Appointment_save, related_service, model_save,
    increment_appointment_counter, related_provider,
    increment_appointment_count, provider_save_update_fields, foreign_keys_ok.
  run_m.
  destruct (price_unset (total_price self)); simpl;
    rewrite ?Hsvc; simpl;
    rewrite Hpk; simpl; rewrite Hrow, Hsvc, Hfresh; simpl;
    destruct Hcached as [-> | ->]; simpl; rewrite ?Hkey, ?Hrow; simpl;
    rewrite ?Hkey, ?Hrow; simpl; eexists _, _; (split; [reflexivity|]);
    simpl; done.
Qed.

Lemma save_existing_keeps_providers cached self uf s k r :
  pk self = Some k →
  appointments s !! k = Some r →
  providers (Appointment_save cached self uf s).2 = providers s.
Proof.
  intros Hpk Hr.
  unfold Appointment_save, related_service, model_save,
    increment_appointment_counter.
  run_m.
  destruct (price_unset (total_price self)); simpl.
  - destruct (services s !! service self); simpl; [|done].
    rewrite Hpk, Hr. simpl.
    destruct uf; simpl; try done.
    destruct (foreign_keys_ok s _); done.
  - rewrite Hpk, Hr. simpl.
    destruct uf; simpl; try done.
    destruct (foreign_keys_ok s _); done.
Qed.

(* --------------------------------------------------------------------- *)
(** *** Code that does not read the appointment table *)

Lemma blind_bind {A B} k a (m : M A) (f : A → M B) s :
  blind_to k a m s →
  (∀ x s', m s = (Ok x, s') → blind_to k a (f x) s') →
  blind_to k a (m ≫= f) s.
Proof.
  unfold blind_to, mbind, M_bind. intros Hm Hf. rewrite Hm.
  destruct (m s) as [[x|e] s'] eqn:Hms; [|done].
  by apply Hf.
Qed.

Lemma blind_ret {A} k a (x : A) s : blind_to k a (mret x) s.
Proof. done. Qed.

Lemma blind_raise {A} k a e s : blind_to k a (@raise A e) s.
Proof. done. Qed.

Lemma blind_gets {A} k a (f : Store → A) s :
  f (with_appointment k a s) = f s → blind_to k a (gets f) s.
Proof. unfold blind_to, gets. by intros ->. Qed.

Lemma blind_bind_gets {A B} k a (f : Store → A) (g : A → M B) s :
  f (with_appointment k a s) = f s →
  blind_to k a (g (f s)) s →
  blind_to k a (gets f ≫= g) s.
Proof.
  intros Hf Hg. apply blind_bind; [by apply blind_gets|].
  unfold gets. by intros x s' [= <- <-].
Qed.

Lemma with_appointment_insert k a k' a' s :
  k ≠ k' →
  set_appointments (insert k' a') (with_appointment k a s)
  = with_appointment k a (set_appointments (insert k' a') s).
Proof.
  intros Hne. unfold with_appointment, set_appointments. simpl.
  by rewrite insert_insert_ne.
Qed.

Lemma blind_increment k a provider s :
  blind_to k a (increment_appointment_count provider) s.
Proof.
  unfold blind_to, increment_appointment_count, provider_save_update_fields.
  unfold mbind, M_bind, gets, modify, raise, mret, M_ret. simpl.
  by destruct (providers s !! sp_pk provider).
Qed.

Lemma blind_model_save_new k a self s :
  pk self = None →
  k ≠ next_appointment_pk s →
  blind_to k a (model_save self all_fields) s.
Proof.
  intros Hpk Hne. unfold blind_to, model_save. rewrite Hpk.
  unfold mbind, M_bind, gets, modify, raise, mret, M_ret, foreign_keys_ok.
  simpl. rewrite lookup_insert_ne by done.
  destruct (_ && _); [|done].
  f_equal. unfold with_appointment, set_appointments. simpl.
  by rewrite insert_insert_ne.
Qed.

Lemma blind_create k a kw s :
  k ≠ next_appointment_pk s →
  blind_to k a (Appointment_objects_create kw) s.
Proof.
  intros Hne. unfold Appointment_objects_create.
  apply blind_bind.
  { destruct (kw_service_id kw) as [| |sid]; try apply blind_raise.
    apply blind_bind; [by apply blind_gets|].
    intros [svc|] s' _; [apply blind_ret|apply blind_raise]. }
  intros [sid svc] s1 Hs1.
  assert (s1 = s) as ->.
  { destruct (kw_service_id kw); try done.
    unfold mbind, M_bind, gets in Hs1. simpl in Hs1.
    destruct (services s !! a0); simpl in Hs1;
      unfold mret, M_ret, raise in Hs1; congruence. }
  destruct (match kw_client kw with | Some _ => _ | None => _ end)
    as [[name phone] mail].
  destruct (kw_appointment_date kw) as [| |date];
    destruct (kw_appointment_time kw) as [| |time];
    try apply blind_raise;
    (apply blind_bind; [by apply blind_gets|]);
    intros [e|] s' [= _ <-]; try apply blind_raise;
    destruct name, phone;
    try (apply blind_bind; [by apply blind_gets|];
         intros ? ? [= _ <-];
         apply blind_bind; [done|]; intros ? ? _; apply blind_raise).
  apply blind_bind; [by apply blind_model_save_new|].
  intros [self created] s' _.
  apply blind_bind; [|intros; apply blind_ret].
  unfold increment_appointment_counter. destruct created; [|apply blind_ret].
  apply blind_bind; [apply blind_ret|]. intros p s'' [= <- <-].
  apply blind_bind; [apply blind_increment|]. intros; apply blind_ret.
Qed.

Lemma blind_get_provider k a slug s :
  blind_to k a (get_provider_or_404 slug) s.
Proof.
  unfold blind_to, get_provider_or_404, mbind, M_bind, gets. simpl.
  by destruct (List.filter _ _) as [|? [|? ?]].
Qed.

Lemma blind_confirm_booking_body k a request u provider s :
  k ≠ next_appointment_pk s →
  blind_to k a (confirm_booking_body request u provider) s.
Proof.
  intros Hne. unfold confirm_booking_body.
  destruct (method request); [apply blind_ret|]. cbv zeta.
  apply blind_bind.
  { destruct (bool_decide _); [apply blind_raise|apply blind_ret]. }
  intros name s' Hname.
  assert (s' = s) as ->.
  { destruct (bool_decide _); unfold mret, M_ret, raise in Hname; congruence. }
  apply blind_bind; [by apply blind_create|].
  intros; apply blind_ret.
Qed.

Lemma blind_confirm_booking k a request slug s :
  k ≠ next_appointment_pk s →
  blind_to k a (confirm_booking request slug) s.
Proof.
  intros Hne. unfold confirm_booking.
  destruct (user request) as [u|]; [|apply blind_ret].
  apply blind_bind; [apply blind_get_provider|].
  intros provider s' Hget.
  assert (s' = s) as ->.
  { unfold get_provider_or_404, mbind, M_bind, gets in Hget.
    destruct (List.filter _ _) as [|? [|? ?]];
      unfold mret, M_ret, raise in Hget; congruence. }
  by apply blind_confirm_booking_body.
Qed.

Lemma blind_create_appointment k a now request s :
  k ≠ next_appointment_pk s →
  blind_to k a (create_appointment now request) s.
Proof.
  intros Hne.
  unfold create_appointment, login_required, provider_required,
    check_appointment_limit, create_appointment_body.
  destruct (user request) as [u|]; [|apply blind_ret].
  destruct (is_provider u); simpl; [|apply blind_ret].
  apply blind_bind_gets; [done|].
  destruct (provider_profile s u) as [p|]; [|apply blind_ret].
  apply blind_bind_gets; [done|].
  destruct (provider_profile s u) as [p'|].
  - destruct (can_create_appointment now p'); simpl; [|apply blind_ret].
    apply blind_bind_gets; [done|].
    destruct (provider_profile s u) as [p''|]; [|apply blind_raise].
    destruct (method request); [apply blind_ret|].
    apply blind_bind; [by apply blind_create|].
    intros; apply blind_ret.
  - apply blind_bind_gets; [done|].
    destruct (provider_profile s u) as [p''|]; [|apply blind_raise].
    destruct (method request); [apply blind_ret|].
    apply blind_bind; [by apply blind_create|].
    intros; apply blind_ret.
Qed.

(* --------------------------------------------------------------------- *)
(** *** The monthly reset *)

Lemma reset_monthly_counter_run now p r s :
  providers s !! sp_pk p = Some r →
  reset_monthly_counter now p s
  = (Ok (reset_row now p),
     set_providers (insert (sp_pk p) (reset_row now r)) s).
Proof.
  intros Hr. unfold reset_monthly_counter, provider_save_update_fields.
  run_m. rewrite Hr. done.
Qed.

Lemma reset_loop_run now l : ∀ c s,
  Forall (λ p, is_Some (providers s !! sp_pk p)) l →
  ∃ m',
    reset_loop now l c s
    = (Ok (c + Z.of_nat (length l)), set_providers (λ _, m') s)
    ∧ ∀ k, m' !! k
           = if bool_decide (k ∈ map sp_pk l)
             then reset_row now <$> providers s !! k
             else providers s !! k.
Proof.
  induction l as [|p l IH]; intros c s Hall.
  - exists (providers s). split.
    + simpl. unfold mret, M_ret. f_equal; [f_equal; lia|by destruct s].
    + intros k. rewrite bool_decide_eq_false_2; [done|]. simpl.
      apply not_elem_of_nil.
  - apply Forall_cons in Hall as [[r Hr] Hall].
    set (s1 := set_providers (insert (sp_pk p) (reset_row now r)) s).
    destruct (IH (c + 1) s1) as (m' & Hrun & Hm').
    { eapply Forall_impl; [exact Hall|]. intros q [rq Hq]. simpl.
      destruct (decide (sp_pk p = sp_pk q)) as [->|Hne].
      - rewrite lookup_insert_eq. eauto.
      - rewrite lookup_insert_ne by done. eauto. }
    exists m'. split.
    + simpl. unfold mbind, M_bind.
      rewrite (reset_monthly_counter_run now p r s Hr). fold s1. rewrite Hrun.
      f_equal. f_equal. lia.
    + intros k. rewrite Hm'. simpl.
      destruct (decide (k = sp_pk p)) as [->|Hne].
      * rewrite lookup_insert_eq, Hr.
        rewrite (bool_decide_eq_true_2 (sp_pk p ∈ sp_pk p :: map sp_pk l))
          by (apply elem_of_cons; by left).
        by destruct (bool_decide _).
      * rewrite lookup_insert_ne by done.
        destruct (decide (k ∈ map sp_pk l)) as [Hin|Hnin].
        -- rewrite !bool_decide_eq_true_2; [done|by apply elem_of_cons; right|done].
        -- rewrite !bool_decide_eq_false_2; [done| |done].
           intros [?|?]%elem_of_cons; done.
Qed.

Lemma active_keys s k :
  provider_keys_ok s →
  k ∈ map sp_pk (List.filter sp_is_active (map_to_list (providers s)).*2)
  ↔ ∃ p, providers s !! k = Some p ∧ sp_is_active p = true.
Proof.
  intros Hok. rewrite list_elem_of_In, in_map_iff. split.
  - intros (p & <- & Hin). apply filter_In in Hin as [Hin Hact].
    apply list_elem_of_In, list_elem_of_fmap in Hin as ([k' p'] & -> & Hin).
    apply elem_of_map_to_list in Hin. simpl in *.
    rewrite (Hok _ _ Hin). eauto.
  - intros (p & Hp & Hact). exists p. split; [by apply Hok|].
    apply filter_In. split; [|done].
    apply list_elem_of_In, list_elem_of_fmap. exists (k, p). split; [done|].
    by apply elem_of_map_to_list.
Qed.

(** The command maps [reset_if_active] over the provider table. *)
Lemma handle_run now s :
  provider_keys_ok s →
  handle now s
  = (Ok (Z.of_nat (length (List.filter sp_is_active
                             (map_to_list (providers s)).*2))),
     set_providers (fmap (reset_if_active now)) s).
Proof.
  intros Hok. unfold handle. unfold mbind, M_bind, gets.
  set (l := List.filter sp_is_active (map_to_list (providers s)).*2).
  destruct (reset_loop_run now l 0 s) as (m' & -> & Hm').
  { apply Forall_forall. intros p Hin.
    apply list_elem_of_In, filter_In in Hin as [Hin _].
    apply list_elem_of_In, list_elem_of_fmap in Hin as ([k' p'] & -> & Hin).
    apply elem_of_map_to_list in Hin. simpl.
    rewrite (Hok _ _ Hin). eauto. }
  f_equal. unfold set_providers. f_equal.
  apply map_eq. intros k. rewrite Hm', lookup_fmap.
  destruct (decide (k ∈ map sp_pk l)) as [Hin|Hnin].
  - rewrite bool_decide_eq_true_2 by done.
    apply active_keys in Hin as (p & Hp & Hact); [|done].
    rewrite Hp. simpl. unfold reset_if_active. by rewrite Hact.
  - rewrite bool_decide_eq_false_2 by done.
    destruct (providers s !! k) as [p|] eqn:Hp; [|done]. simpl.
    unfold reset_if_active.
    destruct (sp_is_active p) eqn:Hact; [|done].
    exfalso. apply Hnin. apply active_keys; eauto.
Qed.

Lemma reset_if_active_idem now p :
  reset_if_active now (reset_if_active now p) = reset_if_active now p.
Proof. unfold reset_if_active. by destruct p as [? ? ? ? ? ? ? []]. Qed.

Lemma provider_keys_ok_reset now s :
  provider_keys_ok s →
  provider_keys_ok (set_providers (fmap (reset_if_active now)) s).
Proof.
  intros Hok k p. simpl. rewrite lookup_fmap.
  destruct (providers s !! k) as [q|] eqn:Hq; [|done]. simpl.
  intros [= <-]. rewrite <- (Hok _ _ Hq).
  unfold reset_if_active. by destruct (sp_is_active q).
Qed.

Lemma two_provider_store_keys_ok : provider_keys_ok two_provider_store.
Proof. apply (bool_decide_unpack _). vm_compute. exact I. Defined.

(* ===================================================================== *)
(** ** Properties of the specification, C1 to C10 *)
(* ===================================================================== *)

(** C1, as stated: in every store reached by booking operations, two
    distinct active appointments of one provider differ in date or time.
    This fails: the public view stores the same request twice. *)
Lemma double_booking_reachable :
  ¬ (∀ s, reachable s → no_double_booking s).
Proof.
  intros Hclaim.
  set (s1 := (confirm_booking client_request "salon" (salon_store 0)).2).
  set (s2 := (confirm_booking client_request "salon" s1).2).
  assert (Hreach : reachable s2).
  { exists (salon_store 0). split; [done|].
    eapply rtc_l; [eapply step_confirm_booking; apply surjective_pairing|].
    eapply rtc_l; [eapply step_confirm_booking; apply surjective_pairing|].
    apply rtc_refl. }
  set (a := λ k, mkAppointment (Some k) 1 7 (Some 20) monday nine pending
                               (Some 50000) payment_pending "").
  apply (Hclaim s2 Hreach 1 2 (a 1) (a 2)); try done.
Qed.

(** C1, amended: no booking operation looks at what the slot already
    holds, and nothing in the storage layer does. Put any appointment row
    under a key other than the next value of the key sequence (stored rows
    have earlier keys): [Appointment.objects.create], the public view
    [confirm_booking] and the provider's function view
    [providers.views.create_appointment] answer the same and write the same
    with that row as without it, on every request. Occupancy is only
    reported, by the read-side query, which is true exactly when some
    pending or confirmed appointment of the provider sits on the date and
    time. *)
Theorem bookings_never_look_at_the_slot now request slug kw s k occupant :
  k ≠ next_appointment_pk s →
  Appointment_objects_create kw (with_appointment k occupant s)
  = (let (r, s') := Appointment_objects_create kw s in
     (r, with_appointment k occupant s'))
  ∧ confirm_booking request slug (with_appointment k occupant s)
    = (let (r, s') := confirm_booking request slug s in
       (r, with_appointment k occupant s'))
  ∧ create_appointment now request (with_appointment k occupant s)
    = (let (r, s') := create_appointment now request s in
       (r, with_appointment k occupant s'))
  ∧ (∀ provider date time,
       slot_booked s provider date time = true
       ↔ ∃ k' a, appointments s !! k' = Some a
                 ∧ service_provider a = sp_pk provider
                 ∧ appointment_date a = date
                 ∧ appointment_time a = time
                 ∧ (status a = pending ∨ status a = confirmed)).
Proof.
  intros Hne. split; [by apply blind_create|].
  split; [by apply blind_confirm_booking|].
  split; [by apply blind_create_appointment|].
  intros provider date time. apply slot_booked_iff.
Qed.

Lemma second_booking_commits_witness :
  slot_booked occupied_store (salon 0) monday nine = true
  ∧ ∃ s',
      confirm_booking client_request "salon" occupied_store
      = (Ok (RedirectBookingSuccess (Some 1)), s')
      ∧ appointments s' !! 1 = Some (monday_booking 1)
      ∧ appointments s' !! 5 = Some (set_status confirmed (monday_booking 5)).
Proof.
  split; [reflexivity|].
  destruct (bookings_never_look_at_the_slot christmas client_request
              "salon"%string
              (mkAppointmentKwargs (salon 0) Missing None None None ""
                                   Missing Missing pending "")
              (salon_store 0) 5 (set_status confirmed (monday_booking 5)))
    as (_ & Hpublic & _); [by vm_compute|].
  unfold occupied_store. rewrite Hpublic.
  eexists. split; [reflexivity|]. split; reflexivity.
Defined.

(** C2, evaluated where it fails: a FREE provider that has used 5 of 5
    appointments. [can_create_appointment] is false and the provider's own
    creation view redirects to the upgrade prompt without writing, but the
    public [confirm_booking] answers with the success redirect, stores the
    appointment and moves the counter to 6. *)
Theorem public_booking_skips_the_quota :
  let s := salon_store 5 in
  let now := christmas in
  can_create_appointment now (salon 5) = false
  ∧ create_appointment now owner_request s = (Ok RedirectUpgradePrompt, s)
  ∧ ∃ s',
      confirm_booking client_request "salon" s
      = (Ok (RedirectBookingSuccess (Some 1)), s')
      ∧ appointments s' !! 1
        = Some (mkAppointment (Some 1) 1 7 (Some 20) monday nine pending
                              (Some 50000) payment_pending "")
      ∧ providers s' !! 1 = Some (salon 6).
Proof.
  split; [done|]. split; [done|].
  eexists. split; [|split].
  - eapply (confirm_booking_ok (salon_store 5) client_request "salon"
              asha (salon 5) (salon 5) 7 haircut "9876543210" monday nine);
      done.
  - done.
  - done.
Qed.

(** C3, evaluated where it fails: slot generation never reads the
    [ServiceAvailability] table, so replacing its rows changes nothing; for
    the service with a Tuesday row 10:00-14:00 at a provider open Tuesday
    09:00-18:00 the slots run from 09:00 to 17:00. *)
Theorem slot_generation_ignores_service_hours :
  (∀ s now provider service date buffer rows,
     get_available_slots (set_service_availability rows s) now provider
                         service date buffer
     = get_available_slots s now provider service date buffer)
  ∧ map slot_time_str
        (get_available_slots (salon_store 0) christmas (salon 0) haircut
                             tuesday 15)
    = ["09:00"; "09:30"; "10:00"; "10:30"; "11:00"; "11:30"; "12:00";
       "12:30"; "13:00"; "13:30"; "14:00"; "14:30"; "15:00"; "15:30";
       "16:00"; "16:30"; "17:00"]%string.
Proof.
  split; [|by vm_compute].
  intros s now provider service date buffer rows.
  unfold get_available_slots, availability_get. simpl.
  destruct (queryset_get _) as [av|]; [|done].
  cbv zeta. rewrite !slots_loop_starts. apply map_ext. intros dt.
  done.
Qed.

(** C4: on a day the provider is open, the slot list renders a strictly
    ascending list of start times; each start is the opening time plus a
    whole number of thirty-minute steps, lies before the closing time and
    satisfies start + duration <= closing time; every such grid point is in
    the list; for 09:00-17:00 and a sixty-minute service the slots are
    09:00, 09:30, ..., 16:00. *)
Theorem slots_ascending_on_grid_within_hours
    s now provider service date buffer av :
  availability_get s provider (weekday date) = Some av →
  valid_time (av_start_time av) →
  valid_time (av_end_time av) →
  let opening := av_start_time av in
  let closing := av_end_time av in
  let duration := timedelta_minutes (duration_minutes service) in
  let slots := get_available_slots s now provider service date buffer in
  ∃ starts : list Z,
    slots = map (render_slot s provider date now) starts
    ∧ map slot_time_str slots = map strftime_HM starts
    ∧ StronglySorted Z.lt starts
    ∧ Forall (λ t, (∃ k, 0 <= k ∧ t = opening + k * timedelta_minutes 30)
                   ∧ t < closing ∧ t + duration <= closing) starts
    ∧ (∀ k, 0 <= k →
            opening + k * timedelta_minutes 30 < closing →
            opening + k * timedelta_minutes 30 + duration <= closing →
            opening + k * timedelta_minutes 30 ∈ starts)
    ∧ (opening = 9 * US_PER_HOUR → closing = 17 * US_PER_HOUR →
       duration_minutes service = 60 →
       map slot_time_str slots
       = ["09:00"; "09:30"; "10:00"; "10:30"; "11:00"; "11:30"; "12:00";
          "12:30"; "13:00"; "13:30"; "14:00"; "14:30"; "15:00"; "15:30";
          "16:00"]%string).
Proof.
  intros Hav Hs He opening closing duration slots.
  pose proof (get_available_slots_starts s now provider service date buffer
                av Hav Hs He) as Heq.
  fold opening closing slots in Heq.
  set (starts := slot_starts (slots_fuel opening closing)
                   (duration_minutes service) closing opening) in *.
  assert (Hstr : map slot_time_str slots = map strftime_HM starts).
  { rewrite Heq, map_map. done. }
  exists starts. split; [done|]. split; [done|].
  split; [apply slot_starts_sorted|].
  split; [apply slot_starts_sound|].
  split.
  - intros k Hk Hlt Hfit. apply slot_starts_complete; try done.
    by apply slots_fuel_enough.
  - intros Ho Hc Hd. rewrite Hstr. unfold starts. rewrite Ho, Hc, Hd.
    vm_compute. reflexivity.
Qed.

Lemma monday_slots_witness :
  map slot_time_str
      (get_available_slots (salon_store 0) christmas (salon 0) haircut
                           monday 15)
  = ["09:00"; "09:30"; "10:00"; "10:30"; "11:00"; "11:30"; "12:00";
     "12:30"; "13:00"; "13:30"; "14:00"; "14:30"; "15:00"; "15:30";
     "16:00"]%string.
Proof.
  destruct (slots_ascending_on_grid_within_hours (salon_store 0) christmas
              (salon 0) haircut monday 15 monday_hours)
    as (starts & _ & _ & _ & _ & _ & Hscenario).
  - reflexivity.
  - vm_compute. split; [discriminate | reflexivity].
  - vm_compute. split; [discriminate | reflexivity].
  - apply Hscenario; reflexivity.
Defined.

(** C5: a transition whose guard does not hold returns [False] and
    changes neither the instance nor the store: [confirm] outside pending,
    [cancel] unless pending or confirmed and in the future, [complete]
    unless confirmed and in the past. Hence all three refuse on completed,
    cancelled and no_show appointments, [cancel] refuses on a completed
    one and [complete] on a pending one. [mark_paid] leaves the status of
    every stored row as it was. *)
Theorem transitions_refuse_outside_their_guard now self s :
  (terminal (status self) →
     confirm self s = (Ok (self, false), s)
     ∧ cancel now self s = (Ok (self, false), s)
     ∧ complete now self s = (Ok (self, false), s))
  ∧ (status self = completed → cancel now self s = (Ok (self, false), s))
  ∧ (status self = pending → complete now self s = (Ok (self, false), s))
  ∧ (status self ≠ pending → confirm self s = (Ok (self, false), s))
  ∧ (¬ ((status self = pending ∨ status self = confirmed)
        ∧ now < appointment_datetime self) →
     cancel now self s = (Ok (self, false), s))
  ∧ (¬ (status self = confirmed ∧ appointment_datetime self < now) →
     complete now self s = (Ok (self, false), s))
  ∧ (∀ method_ k,
       status <$> (appointments (mark_paid self method_ s).2 !! k)
       = status <$> (appointments s !! k)).
Proof.
  assert (Hconfirm : status self ≠ pending →
                     confirm self s = (Ok (self, false), s)).
  { intros Hne. unfold confirm. by rewrite bool_decide_eq_false_2. }
  assert (Hcancel : ¬ ((status self = pending ∨ status self = confirmed)
                       ∧ now < appointment_datetime self) →
                    cancel now self s = (Ok (self, false), s)).
  { intros Hg. unfold cancel, can_cancel, is_upcoming.
    destruct (Z.ltb_spec now (appointment_datetime self)) as [Hlt|Hge].
    - destruct (status self) eqn:Hst; simpl; try done;
        exfalso; apply Hg; auto.
    - simpl. by rewrite andb_false_r. }
  assert (Hcomplete : ¬ (status self = confirmed
                         ∧ appointment_datetime self < now) →
                      complete now self s = (Ok (self, false), s)).
  { intros Hg. unfold complete, is_past.
    destruct (Z.ltb_spec (appointment_datetime self) now) as [Hlt|Hge].
    - rewrite bool_decide_eq_false_2; [done|]. intros Hst. by apply Hg.
    - by rewrite andb_false_r. }
  split; [|split; [|split; [|split; [|split; [|split]]]]]; try done.
  - intros Hterm. split; [|split].
    + apply Hconfirm. destruct Hterm as [H|[H|H]]; rewrite H; done.
    + apply Hcancel. intros [[H'|H'] _];
        destruct Hterm as [H|[H|H]]; rewrite H in H'; done.
    + apply Hcomplete. intros [H' _].
      destruct Hterm as [H|[H|H]]; rewrite H in H'; done.
  - intros Hst. apply Hcancel. intros [[H'|H'] _]; rewrite Hst in H'; done.
  - intros Hst. apply Hcomplete. intros [H' _]. rewrite Hst in H'; done.
  - intros method_ k. apply mark_paid_statuses.
Qed.

Lemma completed_booking_witness :
  cancel week_later (set_status completed (monday_booking 1)) booked_once
  = (Ok (set_status completed (monday_booking 1), false), booked_once).
Proof.
  destruct (transitions_refuse_outside_their_guard week_later
              (set_status completed (monday_booking 1)) booked_once)
    as (_ & Hcancel & _).
  apply Hcancel. reflexivity.
Defined.

(** C6: [check_slot_availability] returns, without raising and with the
    store untouched, the message of the first failing check in the order
    format, past date or time, open day, within hours, fits before closing,
    conflict; the message is one of the eight of the enumeration, and
    [available] is true exactly when all six checks pass. *)
Theorem check_slot_availability_first_failing_check
    now provider service date time_str s :
  let r := validate_candidate s now provider service date time_str in
  check_slot_availability now provider service date time_str s
  = (Ok (mkSlotCheck (bool_decide (r = OK)) (reason_message r)), s)
  ∧ (r = OK ↔
     ∃ time av,
       format_ok time_str = Some time
       ∧ past_check now date time = None
       ∧ open_day s provider date = Some av
       ∧ within_hours av time = true
       ∧ fits_before_close av service time = true
       ∧ slot_booked s provider date time = false).
Proof.
  split; [apply check_slot_availability_eq|apply validate_candidate_OK_iff].
Qed.

(** C7: two calls of [get_available_slots] that differ only in
    [buffer_minutes] return the same list. *)
Theorem buffer_minutes_has_no_effect s now provider service date b1 b2 :
  get_available_slots s now provider service date b1
  = get_available_slots s now provider service date b2.
Proof. unfold get_available_slots. destruct (availability_get _ _ _); reflexivity. Qed.

(** C8, evaluated where it fails: a store with the salon, active, and a
    deactivated FREE provider, both at 5 of 5. The command resets one
    provider, the salon; the deactivated provider keeps its counter 5 and
    its old reset date, although the command's help text and the comment on
    its query say all providers. The periodic task
    [reset_monthly_appointment_counters], which runs the same loop over the
    FREE providers, resets both. *)
Theorem reset_command_skips_deactivated_providers :
  let s := two_provider_store in
  let now := christmas in
  providers s !! 2 = Some dormant
  ∧ appointments_this_month dormant = 5
  ∧ (∃ s',
       handle now s = (Ok 1, s')
       ∧ providers s' !! 1 = Some (reset_row now (salon 5))
       ∧ providers s' !! 2 = Some dormant)
  ∧ (∃ s',
       reset_monthly_appointment_counters now s = (Ok 2, s')
       ∧ providers s' !! 1 = Some (reset_row now (salon 5))
       ∧ providers s' !! 2 = Some (reset_row now dormant)
       ∧ appointments_this_month (reset_row now dormant) = 0
       ∧ last_reset_date (reset_row now dormant) = utc_date now).
Proof.
  split; [done|]. split; [done|]. split.
  - eexists. split; [by vm_compute|]. split; by vm_compute.
  - eexists. split; [by vm_compute|]. repeat split; by vm_compute.
Qed.

(** C9, evaluated where it fails: the receiver does not add one to the
    provider's row, it writes the counter of the provider object that the
    new appointment holds, plus one. For the salon's row at [stored] and a
    provider object that was loaded at [held], the public view stores the
    appointment and leaves the row at [held + 1]. So when two requests
    overlap, the first having loaded the provider (counter 2) before the
    second runs as a whole (counter 3), the first stores its appointment
    and writes 3 again: two appointments were created and the counter went
    from 2 to 3. *)
Theorem counter_follows_the_loaded_object :
  (∀ stored held,
     ∃ s',
       confirm_booking_body client_request asha (salon held)
                            (salon_store stored)
       = (Ok (RedirectBookingSuccess (Some 1)), s')
       ∧ appointments s' !! 1 = Some (monday_booking 1)
       ∧ providers s' !! 1 = Some (salon (held + 1)))
  ∧ (let s0 := salon_store 2 in
     ∃ s1 s2,
       get_provider_or_404 "salon" s0 = (Ok (salon 2), s0)
       ∧ confirm_booking client_request "salon" s0
         = (Ok (RedirectBookingSuccess (Some 1)), s1)
       ∧ providers s1 !! 1 = Some (salon 3)
       ∧ confirm_booking_body client_request asha (salon 2) s1
         = (Ok (RedirectBookingSuccess (Some 2)), s2)
       ∧ appointments s2 !! 1 = Some (monday_booking 1)
       ∧ appointments s2 !! 2 = Some (monday_booking 2)
       ∧ providers s2 !! 1 = Some (salon 3)).
Proof.
  split.
  - intros stored held. eexists. split.
    + eapply (confirm_booking_body_ok (salon_store stored) client_request
                asha (salon held) (salon stored) 7 haircut "9876543210"
                monday nine); done.
    + split; done.
  - eexists _, _. split; [by vm_compute|].
    split; [by vm_compute|]. split; [by vm_compute|].
    split; [by vm_compute|]. repeat split; by vm_compute.
Qed.

(** C10: for a date before today's date in IST, every slot of the list has
    [is_past] false and is available exactly when it is not booked, where
    booked means that a pending or confirmed appointment of the provider
    sits on the date and the slot's time. *)
Theorem past_date_slots_are_never_past s now provider service date buffer :
  date < dt_date (astimezone_ist now) →
  ∃ times : list Z,
    get_available_slots s now provider service date buffer
    = map (λ t, let occupied := slot_booked s provider date t in
                mkSlot (strftime_HM t) (strftime_IMp t)
                       (negb occupied) false occupied) times
    ∧ ∀ t, slot_booked s provider date t = true
           ↔ ∃ k a, appointments s !! k = Some a
                    ∧ service_provider a = sp_pk provider
                    ∧ appointment_date a = date
                    ∧ appointment_time a = t
                    ∧ (status a = pending ∨ status a = confirmed).
Proof.
  intros Hpast. unfold get_available_slots.
  destruct (availability_get s provider (weekday date)) as [av|].
  - eexists. split; [|intros t; apply slot_booked_iff].
    cbv zeta. apply slots_loop_not_today. lia.
  - exists []. split; [done|]. intros t; apply slot_booked_iff.
Qed.

Lemma past_monday_witness :
  ∃ times : list Z,
    get_available_slots booked_once week_later (salon 1) haircut monday 15
    = map (λ t, let occupied := slot_booked booked_once (salon 1) monday t in
                mkSlot (strftime_HM t) (strftime_IMp t)
                       (negb occupied) false occupied) times
    ∧ ∀ t, slot_booked booked_once (salon 1) monday t = true
           ↔ ∃ k a, appointments booked_once !! k = Some a
                    ∧ service_provider a = sp_pk (salon 1)
                    ∧ appointment_date a = monday
                    ∧ appointment_time a = t
                    ∧ (status a = pending ∨ status a = confirmed).
Proof.
  apply (past_date_slots_are_never_past booked_once week_later (salon 1)
           haircut monday 15).
  vm_compute. reflexivity.
Defined.
